(** * Banco simple: entidad, caso de uso y repositorio

    Shallow embedding of the core classes of [banco.py] (the same three
    classes are repeated verbatim in [main.py]):

      - [Cuenta]                   the account entity,
      - [RepositorioCuentaSQLite]  the SQLite adapter,
      - [CasoDeUsoCuenta]          the use case driving both.

    Modelling decisions.

    - Amounts.  The Python code computes on [float].  Every property below
      is a statement of exact arithmetic and order, so amounts are exact
      rationals ([Q]); IEEE-754 rounding, infinities and NaN are outside the
      model.  Where the code stores a number unchanged the theorems use
      Leibniz equality, where it computes one they use [==] when needed.
    - Mutation.  A method of [Cuenta] mutates [self] and may raise.  It is a
      computation in a state-and-exception monad over the object: the state
      that comes out is the object as it is after the call, also when the
      call raised.
    - Exceptions.  All three domain errors are [ValueError], told apart by
      their message only.
    - Database.  The table [cuentas (id_cuenta TEXT PRIMARY KEY, saldo REAL
      NOT NULL)] is a finite map from id to balance.  The connection also
      keeps the list of statements it executed, oldest first, so that the
      order of the calls of the use case can be stated.
    - Front ends.  The text menu of [main.py] is a loop over the lines of
      the standard input, one turn per option; the two button handlers of
      [AplicacionBanco] in [banco.py] are functions of the two entry
      fields.  Python's [float] on a string and its formatting of a float
      are parameters of both.  Storage errors ([sqlite3.DatabaseError])
      are outside the model. *)

From Stdlib Require Import QArith Lqa.
From stdpp Require Import gmap strings list fin_maps.

Local Open Scope Q_scope.

(** ** Exceptions *)

Inductive Excepcion : Type :=
| ValueError (mensaje : string).

Definition InvalidAmount : Excepcion := ValueError "El monto debe ser mayor a 0".
Definition InsufficientFunds : Excepcion := ValueError "Fondos insuficientes".
Definition AccountNotFound : Excepcion := ValueError "Cuenta no encontrada".

(** ** Computations that read and write a state and may raise *)

Definition Efecto (S A : Type) : Type := S -> (Excepcion + A) * S.

Definition ret {S A} (a : A) : Efecto S A := fun s => (inr a, s).

Definition raise {S A} (e : Excepcion) : Efecto S A := fun s => (inl e, s).

Definition bind {S A B} (m : Efecto S A) (k : A -> Efecto S B) : Efecto S B :=
  fun s =>
    match m s with
    | (inl e, s') => (inl e, s')
    | (inr a, s') => k a s'
    end.

Definition get {S} : Efecto S S := fun s => (inr s, s).

Definition put {S} (s' : S) : Efecto S unit := fun _ => (inr tt, s').

(** Call a method on a local object [obj] from inside a computation over
    another state.  The object after the call is handed back next to the
    result; when the method raises, the exception unwinds through the
    caller and the local object is dropped with its frame. *)
Definition invocar {S O A} (m : Efecto O A) (obj : O) : Efecto S (A * O) :=
  fun s =>
    match m obj with
    | (inl e, _) => (inl e, s)
    | (inr a, obj') => (inr (a, obj'), s)
    end.

Declare Scope efecto_scope.
Delimit Scope efecto_scope with efecto.

Notation "x <- m ;; k" := (bind m (fun x => k))
  (at level 100, m at next level, right associativity) : efecto_scope.

(** Python's [a > b] on numbers. *)
Definition Qgt_bool (a b : Q) : bool :=
  match a ?= b with
  | Gt => true
  | _ => false
  end.

(** ** Dominio: la entidad [Cuenta] *)

Module Cuenta.

Record t : Type := Cuenta { id_cuenta : string; saldo : Q }.

(** [__init__(self, id_cuenta, saldo=0.0)]: two assignments, no check. *)
Definition __init__ (id : string) (saldo_inicial : option Q) : t :=
  {| id_cuenta := id; saldo := default 0 saldo_inicial |}.

Definition con_saldo (self : t) (s : Q) : t :=
  {| id_cuenta := id_cuenta self; saldo := s |}.

Definition depositar (monto : Q) : Efecto t unit :=
  (self <- get ;;
   if Qle_bool monto 0
   then raise InvalidAmount
   else put (con_saldo self (saldo self + monto)))%efecto.

Definition retirar (monto : Q) : Efecto t unit :=
  (self <- get ;;
   if Qgt_bool monto (saldo self)
   then raise InsufficientFunds
   else put (con_saldo self (saldo self - monto)))%efecto.

End Cuenta.

(** ** Puerto: what the use case needs from a repository

    The use case is duck typed: any object with [obtener_por_id] and
    [guardar] will do.  [BD] is the state the repository works on. *)

Module Puerto.

Class Repositorio (BD : Type) : Type := {
  obtener_por_id : string -> Efecto BD Cuenta.t;
  guardar : Cuenta.t -> Efecto BD unit
}.

End Puerto.

(** ** Adaptador: [RepositorioCuentaSQLite] *)

Module RepositorioCuentaSQLite.

Inductive Sentencia : Type :=
| Select (id : string)
| InsertOrReplace (id : string) (saldo : Q).

Record Conexion : Type := {
  cuentas : gmap string Q;
  ejecutadas : list Sentencia
}.

(** A database in which [CREATE TABLE IF NOT EXISTS] has just made the
    table. *)
Definition nueva : Conexion := {| cuentas := ∅; ejecutadas := [] |}.

(** [conn.execute('SELECT * FROM cuentas WHERE id_cuenta = ?', (id,))]
    followed by [fetchone()]: the row of that key, if there is one. *)
Definition select_fetchone (id : string) : Efecto Conexion (option (string * Q)) :=
  fun conn =>
    (inr ((fun s => (id, s)) <$> (cuentas conn !! id)),
     {| cuentas := cuentas conn; ejecutadas := ejecutadas conn ++ [Select id] |}).

(** [INSERT OR REPLACE INTO cuentas (id_cuenta, saldo) VALUES (?, ?)],
    committed by the enclosing [with self.conn]. *)
Definition insert_or_replace (id : string) (s : Q) : Efecto Conexion unit :=
  fun conn =>
    (inr tt,
     {| cuentas := <[id := s]> (cuentas conn);
        ejecutadas := ejecutadas conn ++ [InsertOrReplace id s] |}).

Definition obtener_por_id (id : string) : Efecto Conexion Cuenta.t :=
  (fila <- select_fetchone id ;;
   match fila with
   | None => raise AccountNotFound
   | Some (fila0, fila1) => ret (Cuenta.__init__ fila0 (Some fila1))
   end)%efecto.

Definition guardar (cuenta : Cuenta.t) : Efecto Conexion unit :=
  insert_or_replace (Cuenta.id_cuenta cuenta) (Cuenta.saldo cuenta).

End RepositorioCuentaSQLite.

#[export] Instance repositorio_sqlite :
  Puerto.Repositorio RepositorioCuentaSQLite.Conexion := {
  Puerto.obtener_por_id := RepositorioCuentaSQLite.obtener_por_id;
  Puerto.guardar := RepositorioCuentaSQLite.guardar
}.

(** ** Caso de uso: [CasoDeUsoCuenta] *)

Module CasoDeUsoCuenta.

Section ConRepositorio.
Context {BD : Type} {repositorio_cuentas : Puerto.Repositorio BD}.

Definition depositar (id : string) (monto : Q) : Efecto BD unit :=
  (cuenta <- Puerto.obtener_por_id id ;;
   r <- invocar (Cuenta.depositar monto) cuenta ;;
   Puerto.guardar (snd r))%efecto.

Definition retirar (id : string) (monto : Q) : Efecto BD unit :=
  (cuenta <- Puerto.obtener_por_id id ;;
   r <- invocar (Cuenta.retirar monto) cuenta ;;
   Puerto.guardar (snd r))%efecto.

End ConRepositorio.

End CasoDeUsoCuenta.

Import RepositorioCuentaSQLite.

(** The composition root of both files: add the test account when it is
    not there yet. *)
Definition cuenta_de_prueba : Efecto Conexion unit :=
  fun conn =>
    match obtener_por_id "12345" conn with
    | (inl (ValueError _), conn') => guardar (Cuenta.__init__ "12345" (Some 100)) conn'
    | (inr _, conn') => (inr tt, conn')
    end.

(** ** Predicates of the specification *)


Definition tabla_valida (conn : Conexion) : Prop :=
  forall (id : string) (b : Q), cuentas conn !! id = Some b -> 0 <= b.

(** ** States the theorems talk about *)

(** The connection after a [SELECT] on [id]: same table, one more
    statement. *)
Definition tras_select (id : string) (conn : Conexion) : Conexion :=
  {| cuentas := cuentas conn; ejecutadas := ejecutadas conn ++ [Select id] |}.

(** The connection after a [SELECT] on [id] and then an
    [INSERT OR REPLACE] of [id] with balance [s]. *)
Definition tras_guardar (id : string) (s : Q) (conn : Conexion) : Conexion :=
  {| cuentas := <[id := s]> (cuentas conn);
     ejecutadas := ejecutadas conn ++ [Select id; InsertOrReplace id s] |}.

(** The table with the test account of the composition root in it. *)
Definition banco_inicial : Conexion :=
  snd (guardar (Cuenta.__init__ "12345" (Some 100)) nueva).

(** ** Arranque: opening the repository

    [RepositorioCuentaSQLite.__init__] connects to the database file and
    runs [_crear_tabla].  What matters of the file is the table [cuentas],
    if an earlier run has created it. *)

(** [CREATE TABLE IF NOT EXISTS cuentas (...)]. *)
Definition _crear_tabla (archivo : option (gmap string Q)) : gmap string Q :=
  match archivo with
  | Some tabla => tabla
  | None => ∅
  end.

Definition RepositorioCuentaSQLite__init__ (archivo : option (gmap string Q)) : Conexion :=
  {| cuentas := _crear_tabla archivo; ejecutadas := [] |}.

(** The file as a connection leaves it: every [guardar] commits. *)
Definition archivo_de (conn : Conexion) : option (gmap string Q) := Some (cuentas conn).

(** The first lines of [main] and of the [__main__] block: open the
    repository, then make sure of the test account. *)
Definition arranque (archivo : option (gmap string Q)) : (Excepcion + unit) * Conexion :=
  cuenta_de_prueba (RepositorioCuentaSQLite__init__ archivo).

(** ** What both front ends run inside their [try]

    The operation of the use case, then the fetch of the account again
    for the balance to show. *)

Definition depositar_y_consultar (id : string) (monto : Q) : Efecto Conexion Q :=
  (_ <- CasoDeUsoCuenta.depositar id monto ;;
   cuenta <- obtener_por_id id ;;
   ret (Cuenta.saldo cuenta))%efecto.

Definition retirar_y_consultar (id : string) (monto : Q) : Efecto Conexion Q :=
  (_ <- CasoDeUsoCuenta.retirar id monto ;;
   cuenta <- obtener_por_id id ;;
   ret (Cuenta.saldo cuenta))%efecto.

Definition consultar (id : string) : Efecto Conexion Q :=
  (cuenta <- obtener_por_id id ;;
   ret (Cuenta.saldo cuenta))%efecto.

(** [str(e)] of a [ValueError] made with one argument. *)
Definition str_de_excepcion (e : Excepcion) : string :=
  match e with
  | ValueError mensaje => mensaje
  end.

(** ** The text menu: [main] of [main.py]

    The process reads lines from its standard input and writes to its
    standard output.  [float] on a string and the formatting of a float in
    an f-string are those of Python: they are parameters here. *)

Module CLI.

(** How [main] ends: it returns, or an exception leaves it. *)
Inductive Fin : Type :=
| Retorna
| EOFError
| NoCapturada (e : Excepcion).

Record Proceso : Type := {
  entrada : list string;
  salida : list string;
  bd : Conexion
}.

Definition nl : string := String (Ascii.ascii_of_nat 10) EmptyString.

Definition print (s : string) (p : Proceso) : Proceso :=
  {| entrada := entrada p; salida := salida p ++ [(s ++ nl)%string]; bd := bd p |}.

(** [input(prompt)]: write the prompt, read one line; [None] stands for
    the [EOFError] of an exhausted input. *)
Definition input (prompt : string) (p : Proceso) : option string * Proceso :=
  match entrada p with
  | [] => (None, {| entrada := []; salida := salida p ++ [prompt]; bd := bd p |})
  | linea :: resto =>
      (Some linea, {| entrada := resto; salida := salida p ++ [prompt]; bd := bd p |})
  end.

(** Run a computation of the repository on the database of the process. *)
Definition en_bd {A} (m : Efecto Conexion A) (p : Proceso) : (Excepcion + A) * Proceso :=
  match m (bd p) with
  | (r, conn') => (r, {| entrada := entrada p; salida := salida p; bd := conn' |})
  end.

Section Entorno.
Variable float_de_str : string -> Excepcion + Q.
Variable str_de_float : Q -> string.

Definition menu (p : Proceso) : Proceso :=
  print "4. Salir"
    (print "3. Consultar saldo"
       (print "2. Retirar"
          (print "1. Depositar"
             (print (nl ++ "Bienvenido al Banco CLI") p)))).

(** A [try] body that yields the balance to show, and what is printed
    after it: [exito] before the balance, or the message of the error. *)
Definition intentar (exito : string) (m : Efecto Conexion Q) (p : Proceso) : Proceso :=
  match en_bd m p with
  | (inr nuevo_saldo, p') => print (exito ++ str_de_float nuevo_saldo) p'
  | (inl e, p') => print ("Error: " ++ str_de_excepcion e) p'
  end.

(** Options 1 and 2: two inputs, [float] outside the [try], then the
    [try]. *)
Definition opcion_con_monto (pregunta exito : string)
    (operacion : string -> Q -> Efecto Conexion Q) (p : Proceso) : option Fin * Proceso :=
  match input "Ingrese el ID de la cuenta: " p with
  | (None, p1) => (Some EOFError, p1)
  | (Some id_cuenta, p1) =>
      match input pregunta p1 with
      | (None, p2) => (Some EOFError, p2)
      | (Some texto, p2) =>
          match float_de_str texto with
          | inl e => (Some (NoCapturada e), p2)
          | inr monto => (None, intentar exito (operacion id_cuenta monto) p2)
          end
      end
  end.

Definition opcion_consultar (p : Proceso) : option Fin * Proceso :=
  match input "Ingrese el ID de la cuenta: " p with
  | (None, p1) => (Some EOFError, p1)
  | (Some id_cuenta, p1) => (None, intentar "Saldo actual: " (consultar id_cuenta) p1)
  end.

(** One turn of [while True]; [None] when the loop goes on. *)
Definition iteracion (p : Proceso) : option Fin * Proceso :=
  match input "Seleccione una opción: " (menu p) with
  | (None, p1) => (Some EOFError, p1)
  | (Some opcion, p1) =>
      if (opcion =? "1")%string then
        opcion_con_monto "Ingrese el monto a depositar: "
          "Depósito exitoso. Nuevo saldo: " depositar_y_consultar p1
      else if (opcion =? "2")%string then
        opcion_con_monto "Ingrese el monto a retirar: "
          "Retiro exitoso. Nuevo saldo: " retirar_y_consultar p1
      else if (opcion =? "3")%string then
        opcion_consultar p1
      else if (opcion =? "4")%string then
        (Some Retorna, print "Gracias por usar el Banco CLI. ¡Adiós!" p1)
      else
        (None, print "Opción no válida. Intente de nuevo." p1)
  end.

(** [while True], for at most [n] turns; [None] when [n] turns were not
    enough. *)
Fixpoint bucle (n : nat) (p : Proceso) : option Fin * Proceso :=
  match n with
  | O => (None, p)
  | S n' =>
      match iteracion p with
      | (Some fin, p') => (Some fin, p')
      | (None, p') => bucle n' p'
      end
  end.

(** [main()] on a database file and the lines of the standard input.
    Every turn that goes on has read a line, so one turn more than there
    are lines is enough. *)
Definition main (archivo : option (gmap string Q)) (lineas : list string)
  : option Fin * Proceso :=
  match arranque archivo with
  | (inl e, conn) => (Some (NoCapturada e), {| entrada := lineas; salida := []; bd := conn |})
  | (inr _, conn) => bucle (S (length lineas)) {| entrada := lineas; salida := []; bd := conn |}
  end.

End Entorno.

End CLI.

(** ** The form: the two button handlers of [AplicacionBanco]

    A handler reads the two entry fields and answers with message boxes.
    The [sqlite3.DatabaseError] handlers are not modelled: the repository
    of this development raises no storage error. *)

Module AplicacionBanco.

Inductive Dialogo : Type :=
| showinfo (titulo mensaje : string)
| showerror (titulo mensaje : string).

Section Entorno.
Variable float_de_str : string -> Excepcion + Q.
Variable str_de_float : Q -> string.

(** The [try] of a handler: [float] is inside it. *)
Definition manejar (exito : string) (operacion : string -> Q -> Efecto Conexion Q)
    (entrada_id_cuenta entrada_monto : string) (conn : Conexion) : list Dialogo * Conexion :=
  match float_de_str entrada_monto with
  | inl e => ([showerror "Error" (str_de_excepcion e)], conn)
  | inr monto =>
      match operacion entrada_id_cuenta monto conn with
      | (inr nuevo_saldo, conn') =>
          ([showinfo "Éxito" (exito ++ str_de_float nuevo_saldo)], conn')
      | (inl e, conn') => ([showerror "Error" (str_de_excepcion e)], conn')
      end
  end.

Definition depositar : string -> string -> Conexion -> list Dialogo * Conexion :=
  manejar "Depósito realizado. Nuevo saldo: " depositar_y_consultar.

Definition retirar : string -> string -> Conexion -> list Dialogo * Conexion :=
  manejar "Retiro realizado. Nuevo saldo: " retirar_y_consultar.

End Entorno.

End AplicacionBanco.

(** ** A small environment to run the front ends on

    A stand-in for [float] that knows a few numerals, and one for the
    formatting of a balance. *)

Definition float_de_prueba (texto : string) : Excepcion + Q :=
  if (texto =? "50")%string then inr 50
  else if (texto =? "150")%string then inr 150
  else if (texto =? "200")%string then inr 200
  else if (texto =? "-40")%string then inr (-40)
  else inl (ValueError ("could not convert string to float: " ++ texto)).

Definition str_de_prueba (x : Q) : string :=
  if Qeq_bool x 0 then "0.0"
  else if Qeq_bool x 100 then "100.0"
  else if Qeq_bool x 150 then "150.0"
  else "...".

(** What a session may do to the table: [conn'] has the ids of [conn],
    and no negative balance when [conn] has none. *)
Definition sucede_a (conn conn' : Conexion) : Prop :=
  dom (cuentas conn') = dom (cuentas conn) /\
  (tabla_valida conn -> tabla_valida conn').

(** ** Comparisons *)

Lemma Qgt_bool_true (a b : Q) : Qgt_bool a b = true <-> b < a.
Proof.
  unfold Qgt_bool. rewrite (Qgt_alt a b).
  destruct (a ?= b); split; congruence.
Qed.

Lemma Qgt_bool_false (a b : Q) : Qgt_bool a b = false <-> a <= b.
Proof.
  unfold Qgt_bool. rewrite (Qle_alt a b).
  destruct (a ?= b); split; congruence.
Qed.

Lemma Qle_bool_false (a b : Q) : Qle_bool a b = false <-> b < a.
Proof.
  rewrite <- not_true_iff_false, Qle_bool_iff. split.
  - apply Qnot_le_lt.
  - apply Qlt_not_le.
Qed.

(** ** The entity, case by case *)

Lemma depositar_rechaza (c : Cuenta.t) (d : Q) :
  d <= 0 -> Cuenta.depositar d c = (inl InvalidAmount, c).
Proof.
  intros Hd. apply Qle_bool_iff in Hd.
  unfold Cuenta.depositar, bind, get. rewrite Hd. reflexivity.
Qed.

Lemma depositar_acepta (c : Cuenta.t) (d : Q) :
  0 < d ->
  Cuenta.depositar d c = (inr tt, Cuenta.con_saldo c (Cuenta.saldo c + d)).
Proof.
  intros Hd. apply Qle_bool_false in Hd.
  unfold Cuenta.depositar, bind, get. rewrite Hd. reflexivity.
Qed.

Lemma retirar_rechaza (c : Cuenta.t) (w : Q) :
  Cuenta.saldo c < w -> Cuenta.retirar w c = (inl InsufficientFunds, c).
Proof.
  intros Hw. apply Qgt_bool_true in Hw.
  unfold Cuenta.retirar, bind, get. rewrite Hw. reflexivity.
Qed.

Lemma retirar_acepta (c : Cuenta.t) (w : Q) :
  w <= Cuenta.saldo c ->
  Cuenta.retirar w c = (inr tt, Cuenta.con_saldo c (Cuenta.saldo c - w)).
Proof.
  intros Hw. apply Qgt_bool_false in Hw.
  unfold Cuenta.retirar, bind, get. rewrite Hw. reflexivity.
Qed.

(** ** Properties of [Cuenta] *)



(** C3. For every account and every deposit [d <= 0], [Cuenta.depositar d]
    raises the invalid-amount error and the account is exactly as it was
    before the call. *)
Theorem depositar_no_positivo_falla (c : Cuenta.t) (d : Q) :
  d <= 0 ->
  fst (Cuenta.depositar d c) = inl InvalidAmount /\
  snd (Cuenta.depositar d c) = c.
Proof.
  intros Hd. rewrite (depositar_rechaza c d Hd). split; reflexivity.
Qed.

Lemma depositar_no_positivo_falla_witness :
  -5 <= 0 /\
  fst (Cuenta.depositar (-5) (Cuenta.__init__ "12345" (Some 100))) = inl InvalidAmount /\
  snd (Cuenta.depositar (-5) (Cuenta.__init__ "12345" (Some 100)))
  = Cuenta.__init__ "12345" (Some 100).
Proof.
  split; [discriminate |].
  apply (depositar_no_positivo_falla (Cuenta.__init__ "12345" (Some 100)) (-5)).
  discriminate.
Defined.



(** C5. For every account with balance [b] and every withdrawal [w > b],
    [Cuenta.retirar w] raises the insufficient-funds error and the account
    is exactly as it was before the call. *)
Theorem retirar_excesivo_falla (c : Cuenta.t) (w : Q) :
  Cuenta.saldo c < w ->
  fst (Cuenta.retirar w c) = inl InsufficientFunds /\
  snd (Cuenta.retirar w c) = c.
Proof.
  intros Hw. rewrite (retirar_rechaza c w Hw). split; reflexivity.
Qed.

Lemma retirar_excesivo_falla_witness :
  Cuenta.saldo (Cuenta.__init__ "12345" (Some 150)) < 200 /\
  fst (Cuenta.retirar 200 (Cuenta.__init__ "12345" (Some 150))) = inl InsufficientFunds /\
  snd (Cuenta.retirar 200 (Cuenta.__init__ "12345" (Some 150)))
  = Cuenta.__init__ "12345" (Some 150).
Proof.
  split; [reflexivity |].
  apply (retirar_excesivo_falla (Cuenta.__init__ "12345" (Some 150)) 200).
  reflexivity.
Defined.



(** ** The repository, case by case *)

Lemma obtener_ausente (id : string) (conn : Conexion) :
  cuentas conn !! id = None ->
  obtener_por_id id conn = (inl AccountNotFound, tras_select id conn).
Proof.
  intros Hid. unfold obtener_por_id, bind, select_fetchone.
  rewrite Hid. reflexivity.
Qed.

Lemma obtener_presente (id : string) (b : Q) (conn : Conexion) :
  cuentas conn !! id = Some b ->
  obtener_por_id id conn = (inr (Cuenta.Cuenta id b), tras_select id conn).
Proof.
  intros Hid. unfold obtener_por_id, bind, select_fetchone.
  rewrite Hid. reflexivity.
Qed.


(** ** Properties of [RepositorioCuentaSQLite] *)

(** C8. For every id that has no record in the table, [obtener_por_id]
    raises the account-not-found error; it returns no account at all, so
    in particular no default one, and it writes nothing. *)
Theorem obtener_por_id_inexistente (id : string) (conn : Conexion) :
  cuentas conn !! id = None ->
  fst (obtener_por_id id conn) = inl AccountNotFound /\
  (forall c : Cuenta.t, fst (obtener_por_id id conn) <> inr c) /\
  cuentas (snd (obtener_por_id id conn)) = cuentas conn.
Proof.
  intros Hid. rewrite (obtener_ausente id conn Hid). cbn.
  repeat split. intros c Hc. discriminate Hc.
Qed.

Lemma obtener_por_id_inexistente_witness :
  cuentas (snd (guardar (Cuenta.__init__ "12345" (Some 100)) nueva)) !! "99999" = None /\
  fst (obtener_por_id "99999" (snd (guardar (Cuenta.__init__ "12345" (Some 100)) nueva)))
  = inl AccountNotFound.
Proof.
  split; [reflexivity |].
  apply (obtener_por_id_inexistente "99999"
           (snd (guardar (Cuenta.__init__ "12345" (Some 100)) nueva))).
  reflexivity.
Defined.


(** C10. The constructor checks nothing: whatever initial balance it is
    given becomes the balance of the account, and [guardar] writes the
    balance of whatever account it is given.  So the account built with
    the initial balance [-1] exists, has a negative balance, is saved
    without error, and is read back with that negative balance. *)
Theorem construccion_y_guardado_sin_validar :
  (forall (id : string) (s : Q), Cuenta.saldo (Cuenta.__init__ id (Some s)) = s) /\
  (forall (c : Cuenta.t) (conn : Conexion),
      fst (guardar c conn) = inr tt /\
      cuentas (snd (guardar c conn)) !! Cuenta.id_cuenta c = Some (Cuenta.saldo c)) /\
  Cuenta.saldo (Cuenta.__init__ "12345" (Some (-1))) < 0 /\
  cuentas (snd (guardar (Cuenta.__init__ "12345" (Some (-1))) nueva)) !! "12345"
  = Some (-1) /\
  fst (obtener_por_id "12345" (snd (guardar (Cuenta.__init__ "12345" (Some (-1))) nueva)))
  = inr (Cuenta.Cuenta "12345" (-1)).
Proof.
  split; [reflexivity |].
  split.
  - intros c conn. split; [reflexivity |]. cbn. apply lookup_insert_eq.
  - repeat split.
Qed.

(** ** The use case on the SQLite repository *)

Lemma guardar_tras_select (id : string) (s : Q) (conn : Conexion) :
  guardar (Cuenta.Cuenta id s) (tras_select id conn) = (inr tt, tras_guardar id s conn).
Proof.
  unfold guardar, insert_or_replace, tras_select, tras_guardar. cbn.
  rewrite <- app_assoc. reflexivity.
Qed.

Lemma servicio_depositar_ausente (id : string) (monto : Q) (conn : Conexion) :
  cuentas conn !! id = None ->
  CasoDeUsoCuenta.depositar id monto conn = (inl AccountNotFound, tras_select id conn).
Proof.
  intros Hid. unfold CasoDeUsoCuenta.depositar, bind.
  cbn [Puerto.obtener_por_id Puerto.guardar repositorio_sqlite].
  rewrite (obtener_ausente id conn Hid). reflexivity.
Qed.

Lemma servicio_retirar_ausente (id : string) (monto : Q) (conn : Conexion) :
  cuentas conn !! id = None ->
  CasoDeUsoCuenta.retirar id monto conn = (inl AccountNotFound, tras_select id conn).
Proof.
  intros Hid. unfold CasoDeUsoCuenta.retirar, bind.
  cbn [Puerto.obtener_por_id Puerto.guardar repositorio_sqlite].
  rewrite (obtener_ausente id conn Hid). reflexivity.
Qed.

Lemma servicio_depositar_rechaza (id : string) (b monto : Q) (conn : Conexion) :
  cuentas conn !! id = Some b -> monto <= 0 ->
  CasoDeUsoCuenta.depositar id monto conn = (inl InvalidAmount, tras_select id conn).
Proof.
  intros Hid Hm. unfold CasoDeUsoCuenta.depositar, bind, invocar.
  cbn [Puerto.obtener_por_id Puerto.guardar repositorio_sqlite].
  rewrite (obtener_presente id b conn Hid).
  rewrite (depositar_rechaza _ monto Hm). reflexivity.
Qed.

Lemma servicio_depositar_acepta (id : string) (b monto : Q) (conn : Conexion) :
  cuentas conn !! id = Some b -> 0 < monto ->
  CasoDeUsoCuenta.depositar id monto conn = (inr tt, tras_guardar id (b + monto) conn).
Proof.
  intros Hid Hm. unfold CasoDeUsoCuenta.depositar, bind, invocar.
  cbn [Puerto.obtener_por_id Puerto.guardar repositorio_sqlite].
  rewrite (obtener_presente id b conn Hid).
  rewrite (depositar_acepta _ monto Hm). cbn.
  apply guardar_tras_select.
Qed.

Lemma servicio_retirar_rechaza (id : string) (b monto : Q) (conn : Conexion) :
  cuentas conn !! id = Some b -> b < monto ->
  CasoDeUsoCuenta.retirar id monto conn = (inl InsufficientFunds, tras_select id conn).
Proof.
  intros Hid Hm. unfold CasoDeUsoCuenta.retirar, bind, invocar.
  cbn [Puerto.obtener_por_id Puerto.guardar repositorio_sqlite].
  rewrite (obtener_presente id b conn Hid).
  rewrite (retirar_rechaza (Cuenta.Cuenta id b) monto Hm). reflexivity.
Qed.

Lemma servicio_retirar_acepta (id : string) (b monto : Q) (conn : Conexion) :
  cuentas conn !! id = Some b -> monto <= b ->
  CasoDeUsoCuenta.retirar id monto conn = (inr tt, tras_guardar id (b - monto) conn).
Proof.
  intros Hid Hm. unfold CasoDeUsoCuenta.retirar, bind, invocar.
  cbn [Puerto.obtener_por_id Puerto.guardar repositorio_sqlite].
  rewrite (obtener_presente id b conn Hid).
  rewrite (retirar_acepta (Cuenta.Cuenta id b) monto Hm). cbn.
  apply guardar_tras_select.
Qed.



(** ** Properties of [CasoDeUsoCuenta] *)



(** ** The invariant [saldo >= 0] *)

Lemma tabla_valida_nueva : tabla_valida nueva.
Proof. intros id b Hid. cbn in Hid. rewrite lookup_empty in Hid. discriminate Hid. Qed.








(** ** The scenario of the specification, run on the model *)

Example escenario :
  let s0 := banco_inicial in
  let r1 := CasoDeUsoCuenta.depositar "12345" 50 s0 in
  let r2 := CasoDeUsoCuenta.retirar "12345" 200 (snd r1) in
  let r3 := CasoDeUsoCuenta.retirar "12345" 150 (snd r2) in
  let r4 := obtener_por_id "99999" (snd r3) in
  fst r1 = inr tt /\ cuentas (snd r1) !! "12345" = Some 150 /\
  fst r2 = inl InsufficientFunds /\ cuentas (snd r2) !! "12345" = Some 150 /\
  fst r3 = inr tt /\ cuentas (snd r3) !! "12345" = Some 0 /\
  fst r4 = inl AccountNotFound /\
  cuenta_de_prueba nueva = (inr tt, tras_guardar "12345" 100 nueva) /\
  cuentas (snd (cuenta_de_prueba (snd r3))) = cuentas (snd r3).
Proof. vm_compute. repeat split. Qed.

(** * Further properties of the code *)

(** ** The entity: operations composed *)





(** ** The repository: writes composed *)



(** X4. [guardar] and [obtener_por_id] leave every other id alone: after
    [guardar a], a fetch of an id that is not the one of [a] raises or
    returns exactly what it did before. *)
Theorem guardar_no_toca_otras_cuentas (a : Cuenta.t) (id : string) (conn : Conexion) :
  id <> Cuenta.id_cuenta a ->
  cuentas (snd (guardar a conn)) !! id = cuentas conn !! id /\
  fst (obtener_por_id id (snd (guardar a conn))) = fst (obtener_por_id id conn).
Proof.
  intros Hne.
  assert (Hl : cuentas (snd (guardar a conn)) !! id = cuentas conn !! id).
  { cbn. apply lookup_insert_ne. congruence. }
  split; [exact Hl |].
  destruct (cuentas conn !! id) as [b|] eqn:Hid.
  - rewrite (obtener_presente id b _ Hl), (obtener_presente id b _ Hid). reflexivity.
  - rewrite (obtener_ausente id _ Hl), (obtener_ausente id _ Hid). reflexivity.
Qed.

Lemma guardar_no_toca_otras_cuentas_witness :
  fst (obtener_por_id "12345" (snd (guardar (Cuenta.__init__ "67890" (Some 50)) banco_inicial)))
  = fst (obtener_por_id "12345" banco_inicial).
Proof.
  destruct (guardar_no_toca_otras_cuentas
              (Cuenta.__init__ "67890" (Some 50)) "12345" banco_inicial)
    as (_ & Higual).
  - discriminate.
  - exact Higual.
Defined.

(** ** The use case: what it touches *)

(** The three ways [CasoDeUsoCuenta.depositar] can go, and the three of
    [CasoDeUsoCuenta.retirar]: the call in the goal is replaced by its
    outcome. *)
Ltac casos_depositar id monto conn :=
  let b := fresh "b" in
  let Hid := fresh "Hid" in
  let Hm := fresh "Hm" in
  destruct (cuentas conn !! id) as [b|] eqn:Hid;
  [ destruct (Qlt_le_dec 0 monto) as [Hm|Hm];
    [ rewrite !(servicio_depositar_acepta id b monto conn Hid Hm)
    | rewrite !(servicio_depositar_rechaza id b monto conn Hid Hm) ]
  | rewrite !(servicio_depositar_ausente id monto conn Hid) ].

Ltac casos_retirar id monto conn :=
  let b := fresh "b" in
  let Hid := fresh "Hid" in
  let Hm := fresh "Hm" in
  destruct (cuentas conn !! id) as [b|] eqn:Hid;
  [ destruct (Qlt_le_dec b monto) as [Hm|Hm];
    [ rewrite !(servicio_retirar_rechaza id b monto conn Hid Hm)
    | rewrite !(servicio_retirar_acepta id b monto conn Hid Hm) ]
  | rewrite !(servicio_retirar_ausente id monto conn Hid) ].



(** X6. The use case neither creates nor deletes accounts: after
    [depositar] or [retirar], with any arguments, the table has exactly
    the ids it had.  In particular a deposit to an id that is not there
    does not open an account. *)
Theorem caso_de_uso_conserva_los_ids (id : string) (monto : Q) (conn : Conexion) :
  dom (cuentas (snd (CasoDeUsoCuenta.depositar id monto conn))) = dom (cuentas conn) /\
  dom (cuentas (snd (CasoDeUsoCuenta.retirar id monto conn))) = dom (cuentas conn).
Proof.
  assert (Hdom : forall (b s : Q), cuentas conn !! id = Some b ->
             dom (<[id := s]> (cuentas conn)) = dom (cuentas conn)).
  { intros b s Hid. rewrite dom_insert_L.
    apply subseteq_union_1_L, singleton_subseteq_l, elem_of_dom. eauto. }
  split.
  - casos_depositar id monto conn; cbn; try reflexivity. eapply Hdom; eauto.
  - casos_retirar id monto conn; cbn; try reflexivity. eapply Hdom; eauto.
Qed.



(** ** The use case followed by the fetch of the new balance *)

Lemma bind_inl {S A B} (m : Efecto S A) (k : A -> Efecto S B) (s s' : S) (e : Excepcion) :
  m s = (inl e, s') -> bind m k s = (inl e, s').
Proof. intros Hm. unfold bind. rewrite Hm. reflexivity. Qed.

Lemma bind_inr {S A B} (m : Efecto S A) (k : A -> Efecto S B) (s s' : S) (a : A) :
  m s = (inr a, s') -> bind m k s = k a s'.
Proof. intros Hm. unfold bind. rewrite Hm. reflexivity. Qed.

Lemma consultar_presente (id : string) (b : Q) (conn : Conexion) :
  cuentas conn !! id = Some b -> consultar id conn = (inr b, tras_select id conn).
Proof.
  intros Hid. unfold consultar.
  rewrite (bind_inr _ _ _ _ _ (obtener_presente id b conn Hid)). reflexivity.
Qed.

Lemma consultar_ausente (id : string) (conn : Conexion) :
  cuentas conn !! id = None -> consultar id conn = (inl AccountNotFound, tras_select id conn).
Proof.
  intros Hid. unfold consultar.
  rewrite (bind_inl _ _ _ _ _ (obtener_ausente id conn Hid)). reflexivity.
Qed.

Lemma consultar_tras_guardar (id : string) (s : Q) (conn : Conexion) :
  consultar id (tras_guardar id s conn) = (inr s, tras_select id (tras_guardar id s conn)).
Proof. apply consultar_presente. cbn. apply lookup_insert_eq. Qed.












(** ** Opening the repository and the test account *)

Lemma cuenta_de_prueba_presente (b : Q) (conn : Conexion) :
  cuentas conn !! "12345" = Some b ->
  cuenta_de_prueba conn = (inr tt, tras_select "12345" conn).
Proof.
  intros Hid. unfold cuenta_de_prueba.
  rewrite (obtener_presente "12345" b conn Hid). reflexivity.
Qed.

Lemma cuenta_de_prueba_ausente (conn : Conexion) :
  cuentas conn !! "12345" = None ->
  cuenta_de_prueba conn = (inr tt, tras_guardar "12345" 100 conn).
Proof.
  intros Hid. unfold cuenta_de_prueba.
  rewrite (obtener_ausente "12345" conn Hid). cbn [AccountNotFound].
  apply (guardar_tras_select "12345" 100 conn).
Qed.

(** X10. Opening the repository and making sure of the test account
    never raises.  On a file without table the table becomes the single
    record of ["12345"] with balance 100.  On a file with a table, every
    record is kept; when ["12345"] is in it its balance is not reset and
    nothing is written, when it is not it is added with balance 100. *)
Theorem arranque_asegura_cuenta_de_prueba (archivo : option (gmap string Q)) :
  fst (arranque archivo) = inr tt /\
  (archivo = None -> cuentas (snd (arranque archivo)) = {["12345" := 100]}) /\
  (forall (tabla : gmap string Q) (b : Q),
     archivo = Some tabla -> tabla !! "12345" = Some b ->
     cuentas (snd (arranque archivo)) = tabla /\
     ejecutadas (snd (arranque archivo)) = [Select "12345"]) /\
  (forall tabla : gmap string Q,
     archivo = Some tabla -> tabla !! "12345" = None ->
     cuentas (snd (arranque archivo)) = <["12345" := 100]> tabla).
Proof.
  unfold arranque. repeat split.
  - destruct (cuentas (RepositorioCuentaSQLite__init__ archivo) !! "12345") as [b|] eqn:Hid.
    + rewrite (cuenta_de_prueba_presente b _ Hid). reflexivity.
    + rewrite (cuenta_de_prueba_ausente _ Hid). reflexivity.
  - intros ->. reflexivity.
  - subst archivo. rewrite (cuenta_de_prueba_presente b); [reflexivity | assumption].
  - subst archivo. rewrite (cuenta_de_prueba_presente b); [reflexivity | assumption].
  - intros tabla -> Hid. rewrite cuenta_de_prueba_ausente; [reflexivity | assumption].
Qed.

Lemma arranque_asegura_cuenta_de_prueba_witness :
  cuentas (snd (arranque None)) = {["12345" := 100]} /\
  cuentas (snd (arranque (Some {["12345" := 150]}))) = {["12345" := 150]} /\
  cuentas (snd (arranque (Some {["67890" := 50]})))
  = <["12345" := 100]> {["67890" := 50]}.
Proof.
  split; [| split].
  - destruct (arranque_asegura_cuenta_de_prueba None) as (_ & Hnuevo & _).
    apply Hnuevo. reflexivity.
  - destruct (arranque_asegura_cuenta_de_prueba (Some {["12345" := 150]}))
      as (_ & _ & Hesta & _).
    destruct (Hesta {["12345" := 150]} 150) as (Htabla & _); [reflexivity .. |].
    exact Htabla.
  - destruct (arranque_asegura_cuenta_de_prueba (Some {["67890" := 50]}))
      as (_ & _ & _ & Hfalta).
    apply Hfalta; reflexivity.
Defined.

Lemma arranque_tiene_cuenta_de_prueba (archivo : option (gmap string Q)) :
  is_Some (cuentas (snd (arranque archivo)) !! "12345").
Proof.
  unfold arranque.
  destruct (cuentas (RepositorioCuentaSQLite__init__ archivo) !! "12345") as [b|] eqn:Hid.
  - rewrite (cuenta_de_prueba_presente b _ Hid). exists b. exact Hid.
  - rewrite (cuenta_de_prueba_ausente _ Hid). exists 100. cbn. apply lookup_insert_eq.
Qed.

Lemma arranque_con_cuenta_de_prueba (tabla : gmap string Q) (b : Q) :
  tabla !! "12345" = Some b ->
  arranque (Some tabla)
  = (inr tt, tras_select "12345" (RepositorioCuentaSQLite__init__ (Some tabla))).
Proof. intros Hid. unfold arranque. apply (cuenta_de_prueba_presente b). exact Hid. Qed.


(** ** What every step of a session keeps *)

Lemma sucede_a_refl (conn : Conexion) : sucede_a conn conn.
Proof. split; [reflexivity | tauto]. Qed.

Lemma sucede_a_trans (c1 c2 c3 : Conexion) :
  sucede_a c1 c2 -> sucede_a c2 c3 -> sucede_a c1 c3.
Proof.
  intros [Hd12 Hv12] [Hd23 Hv23]. split.
  - rewrite Hd23. exact Hd12.
  - intros Hv. apply Hv23, Hv12, Hv.
Qed.

Lemma sucede_a_misma_tabla (conn conn' : Conexion) :
  cuentas conn' = cuentas conn -> sucede_a conn conn'.
Proof.
  intros Heq. split.
  - rewrite Heq. reflexivity.
  - intros Hv id b. rewrite Heq. apply Hv.
Qed.

Lemma sucede_a_insert (conn conn' : Conexion) (id : string) (b s : Q) :
  cuentas conn !! id = Some b ->
  (0 <= b -> 0 <= s) ->
  cuentas conn' = <[id := s]> (cuentas conn) ->
  sucede_a conn conn'.
Proof.
  intros Hid Hs Heq. split.
  - rewrite Heq, dom_insert_L.
    apply subseteq_union_1_L, singleton_subseteq_l, elem_of_dom. eauto.
  - intros Hv i x. rewrite Heq.
    destruct (decide (id = i)) as [->|Hne].
    + rewrite lookup_insert_eq. intros [= <-]. apply Hs, (Hv i b Hid).
    + rewrite lookup_insert_ne by exact Hne. apply Hv.
Qed.

Lemma consultar_sucede (id : string) (conn : Conexion) :
  sucede_a conn (snd (consultar id conn)).
Proof.
  apply sucede_a_misma_tabla.
  destruct (cuentas conn !! id) as [b|] eqn:Hid.
  - rewrite (consultar_presente id b conn Hid). reflexivity.
  - rewrite (consultar_ausente id conn Hid). reflexivity.
Qed.

Lemma depositar_y_consultar_sucede (id : string) (monto : Q) (conn : Conexion) :
  sucede_a conn (snd (depositar_y_consultar id monto conn)).
Proof.
  unfold depositar_y_consultar.
  destruct (cuentas conn !! id) as [b|] eqn:Hid.
  - destruct (Qlt_le_dec 0 monto) as [Hm|Hm].
    + rewrite (bind_inr _ _ _ _ _ (servicio_depositar_acepta id b monto conn Hid Hm)).
      change (sucede_a conn (snd (consultar id (tras_guardar id (b + monto) conn)))).
      rewrite (consultar_tras_guardar id (b + monto) conn).
      apply (sucede_a_insert conn _ id b (b + monto) Hid); [lra | reflexivity].
    + rewrite (bind_inl _ _ _ _ _ (servicio_depositar_rechaza id b monto conn Hid Hm)).
      apply sucede_a_misma_tabla. reflexivity.
  - rewrite (bind_inl _ _ _ _ _ (servicio_depositar_ausente id monto conn Hid)).
    apply sucede_a_misma_tabla. reflexivity.
Qed.

Lemma retirar_y_consultar_sucede (id : string) (monto : Q) (conn : Conexion) :
  sucede_a conn (snd (retirar_y_consultar id monto conn)).
Proof.
  unfold retirar_y_consultar.
  destruct (cuentas conn !! id) as [b|] eqn:Hid.
  - destruct (Qlt_le_dec b monto) as [Hm|Hm].
    + rewrite (bind_inl _ _ _ _ _ (servicio_retirar_rechaza id b monto conn Hid Hm)).
      apply sucede_a_misma_tabla. reflexivity.
    + rewrite (bind_inr _ _ _ _ _ (servicio_retirar_acepta id b monto conn Hid Hm)).
      change (sucede_a conn (snd (consultar id (tras_guardar id (b - monto) conn)))).
      rewrite (consultar_tras_guardar id (b - monto) conn).
      apply (sucede_a_insert conn _ id b (b - monto) Hid); [lra | reflexivity].
  - rewrite (bind_inl _ _ _ _ _ (servicio_retirar_ausente id monto conn Hid)).
    apply sucede_a_misma_tabla. reflexivity.
Qed.

Lemma arranque_sucede (archivo : option (gmap string Q)) :
  dom (cuentas (snd (arranque archivo))) = {["12345"]} ∪ dom (_crear_tabla archivo) /\
  (tabla_valida (RepositorioCuentaSQLite__init__ archivo) ->
   tabla_valida (snd (arranque archivo))).
Proof.
  unfold arranque.
  destruct (cuentas (RepositorioCuentaSQLite__init__ archivo) !! "12345") as [b|] eqn:Hid.
  - rewrite (cuenta_de_prueba_presente b _ Hid). cbn. split.
    + symmetry. apply subseteq_union_1_L, singleton_subseteq_l, elem_of_dom. eauto.
    + tauto.
  - rewrite (cuenta_de_prueba_ausente _ Hid). cbn. split.
    + apply dom_insert_L.
    + intros Hv i x. cbn.
      destruct (decide ("12345" = i)) as [<-|Hne].
      * rewrite lookup_insert_eq. intros [= <-]. discriminate.
      * rewrite lookup_insert_ne by exact Hne. apply Hv.
Qed.

(** ** The text menu *)

Section Menu.
Variable float_de_str : string -> Excepcion + Q.
Variable str_de_float : Q -> string.

Lemma intentar_bd (exito : string) (m : Efecto Conexion Q) (p : CLI.Proceso) :
  CLI.bd (CLI.intentar str_de_float exito m p) = snd (m (CLI.bd p)).
Proof.
  unfold CLI.intentar, CLI.en_bd.
  destruct (m (CLI.bd p)) as [[e|s] conn']; reflexivity.
Qed.

Lemma intentar_entrada (exito : string) (m : Efecto Conexion Q) (p : CLI.Proceso) :
  CLI.entrada (CLI.intentar str_de_float exito m p) = CLI.entrada p.
Proof.
  unfold CLI.intentar, CLI.en_bd.
  destruct (m (CLI.bd p)) as [[e|s] conn']; reflexivity.
Qed.

Lemma intentar_salida (exito : string) (m : Efecto Conexion Q) (p : CLI.Proceso) :
  last (CLI.salida (CLI.intentar str_de_float exito m p))
  = Some (match fst (m (CLI.bd p)) with
          | inr nuevo_saldo => exito ++ str_de_float nuevo_saldo
          | inl e => "Error: " ++ str_de_excepcion e
          end ++ CLI.nl)%string.
Proof.
  unfold CLI.intentar, CLI.en_bd.
  destruct (m (CLI.bd p)) as [[e|s] conn']; cbn; apply last_snoc.
Qed.

Lemma opcion_con_monto_paso (pregunta exito : string)
    (operacion : string -> Q -> Efecto Conexion Q) (p : CLI.Proceso) :
  (forall (id : string) (monto : Q) (conn : Conexion),
      sucede_a conn (snd (operacion id monto conn))) ->
  sucede_a (CLI.bd p)
    (CLI.bd (snd (CLI.opcion_con_monto float_de_str str_de_float pregunta exito operacion p))) /\
  (fst (CLI.opcion_con_monto float_de_str str_de_float pregunta exito operacion p) = None ->
   (length (CLI.entrada
              (snd (CLI.opcion_con_monto float_de_str str_de_float pregunta exito operacion p)))
    < length (CLI.entrada p))%nat).
Proof.
  intros Hop. destruct p as [lineas escrito conn].
  unfold CLI.opcion_con_monto, CLI.input. cbn.
  destruct lineas as [|id [|texto resto]]; cbn.
  - split; [apply sucede_a_refl | discriminate].
  - split; [apply sucede_a_refl | discriminate].
  - destruct (float_de_str texto) as [e|monto]; cbn.
    + split; [apply sucede_a_refl | discriminate].
    + rewrite intentar_bd, intentar_entrada. cbn. split; [apply Hop | lia].
Qed.

Lemma opcion_consultar_paso (p : CLI.Proceso) :
  sucede_a (CLI.bd p) (CLI.bd (snd (CLI.opcion_consultar str_de_float p))) /\
  (fst (CLI.opcion_consultar str_de_float p) = None ->
   (length (CLI.entrada (snd (CLI.opcion_consultar str_de_float p)))
    < length (CLI.entrada p))%nat).
Proof.
  destruct p as [lineas escrito conn].
  unfold CLI.opcion_consultar, CLI.input. cbn.
  destruct lineas as [|id resto]; cbn.
  - split; [apply sucede_a_refl | discriminate].
  - rewrite intentar_bd, intentar_entrada. cbn.
    split; [apply consultar_sucede | lia].
Qed.

Lemma iteracion_paso (p : CLI.Proceso) :
  sucede_a (CLI.bd p) (CLI.bd (snd (CLI.iteracion float_de_str str_de_float p))) /\
  (fst (CLI.iteracion float_de_str str_de_float p) = None ->
   (length (CLI.entrada (snd (CLI.iteracion float_de_str str_de_float p)))
    < length (CLI.entrada p))%nat).
Proof.
  destruct p as [lineas escrito conn].
  unfold CLI.iteracion, CLI.input, CLI.menu, CLI.print. cbn [CLI.entrada CLI.salida CLI.bd].
  destruct lineas as [|opcion resto].
  - split; [apply sucede_a_refl | discriminate].
  - destruct (opcion =? "1")%string.
    { match goal with
      | |- context [CLI.opcion_con_monto _ _ ?q ?e ?o ?p0] =>
          destruct (opcion_con_monto_paso q e o p0 depositar_y_consultar_sucede)
            as [Hs Hl]
      end.
      split; [exact Hs |]. intros Hn. specialize (Hl Hn). cbn in Hl |- *. lia. }
    destruct (opcion =? "2")%string.
    { match goal with
      | |- context [CLI.opcion_con_monto _ _ ?q ?e ?o ?p0] =>
          destruct (opcion_con_monto_paso q e o p0 retirar_y_consultar_sucede)
            as [Hs Hl]
      end.
      split; [exact Hs |]. intros Hn. specialize (Hl Hn). cbn in Hl |- *. lia. }
    destruct (opcion =? "3")%string.
    { match goal with
      | |- context [CLI.opcion_consultar _ ?p0] =>
          destruct (opcion_consultar_paso p0) as [Hs Hl]
      end.
      split; [exact Hs |]. intros Hn. specialize (Hl Hn). cbn in Hl |- *. lia. }
    destruct (opcion =? "4")%string.
    + split; [apply sucede_a_refl | discriminate].
    + split; [apply sucede_a_refl |]. intros _. cbn. lia.
Qed.

Lemma bucle_sucede (n : nat) (p : CLI.Proceso) :
  sucede_a (CLI.bd p) (CLI.bd (snd (CLI.bucle float_de_str str_de_float n p))).
Proof.
  revert p. induction n as [|n IH]; intros p; cbn.
  - apply sucede_a_refl.
  - destruct (iteracion_paso p) as [Hs _].
    destruct (CLI.iteracion float_de_str str_de_float p) as [[fin|] p'].
    + exact Hs.
    + apply (sucede_a_trans _ (CLI.bd p')); [exact Hs | apply IH].
Qed.



End Menu.

Lemma main_es_bucle (float_de_str : string -> Excepcion + Q) (str_de_float : Q -> string)
    (archivo : option (gmap string Q)) (lineas : list string) :
  CLI.main float_de_str str_de_float archivo lineas
  = CLI.bucle float_de_str str_de_float (S (length lineas))
      {| CLI.entrada := lineas; CLI.salida := []; CLI.bd := snd (arranque archivo) |}.
Proof.
  unfold CLI.main, arranque.
  destruct (cuentas (RepositorioCuentaSQLite__init__ archivo) !! "12345") as [b|] eqn:Hid.
  - rewrite (cuenta_de_prueba_presente b _ Hid). reflexivity.
  - rewrite (cuenta_de_prueba_ausente _ Hid). reflexivity.
Qed.



(** X13. No session of the menu makes a balance negative: when the table
    that [main] opens has no negative balance, the table it leaves has
    none, whatever the lines typed. *)
Theorem main_preserva_tabla_valida
    (float_de_str : string -> Excepcion + Q) (str_de_float : Q -> string)
    (archivo : option (gmap string Q)) (lineas : list string) :
  tabla_valida (RepositorioCuentaSQLite__init__ archivo) ->
  tabla_valida (CLI.bd (snd (CLI.main float_de_str str_de_float archivo lineas))).
Proof.
  intros Hv. rewrite main_es_bucle.
  destruct (bucle_sucede float_de_str str_de_float (S (length lineas))
              {| CLI.entrada := lineas; CLI.salida := []; CLI.bd := snd (arranque archivo) |})
    as [_ Hvalida].
  apply Hvalida. cbn. apply arranque_sucede, Hv.
Qed.

Lemma main_preserva_tabla_valida_witness :
  tabla_valida
    (CLI.bd (snd (CLI.main float_de_prueba str_de_prueba None
                    ["2"; "12345"; "200"; "2"; "12345"; "-40"; "4"]))).
Proof.
  apply (main_preserva_tabla_valida float_de_prueba str_de_prueba None).
  exact tabla_valida_nueva.
Defined.

(** X14. No session of the menu opens or deletes an account: the ids in
    the table that [main] leaves are those of the file it opened and
    ["12345"], whatever the lines typed. *)
Theorem main_conserva_los_ids
    (float_de_str : string -> Excepcion + Q) (str_de_float : Q -> string)
    (archivo : option (gmap string Q)) (lineas : list string) :
  dom (cuentas (CLI.bd (snd (CLI.main float_de_str str_de_float archivo lineas))))
  = {["12345"]} ∪ dom (_crear_tabla archivo).
Proof.
  rewrite main_es_bucle.
  destruct (bucle_sucede float_de_str str_de_float (S (length lineas))
              {| CLI.entrada := lineas; CLI.salida := []; CLI.bd := snd (arranque archivo) |})
    as [Hdom _].
  rewrite Hdom. cbn. apply arranque_sucede.
Qed.

(** X15. What a session leaves is what the next one finds: opening the
    repository on the file left by [main] gives the table [main] ended
    with, and writes nothing. *)
Theorem arranque_tras_sesion
    (float_de_str : string -> Excepcion + Q) (str_de_float : Q -> string)
    (archivo : option (gmap string Q)) (lineas : list string) :
  cuentas
    (snd (arranque
            (archivo_de (CLI.bd (snd (CLI.main float_de_str str_de_float archivo lineas))))))
  = cuentas (CLI.bd (snd (CLI.main float_de_str str_de_float archivo lineas))) /\
  ejecutadas
    (snd (arranque
            (archivo_de (CLI.bd (snd (CLI.main float_de_str str_de_float archivo lineas))))))
  = [Select "12345"].
Proof.
  assert (Hesta : is_Some
            (cuentas (CLI.bd (snd (CLI.main float_de_str str_de_float archivo lineas)))
               !! "12345")).
  { apply elem_of_dom. rewrite main_es_bucle.
    destruct (bucle_sucede float_de_str str_de_float (S (length lineas))
                {| CLI.entrada := lineas; CLI.salida := [];
                   CLI.bd := snd (arranque archivo) |})
      as [Hdom _].
    rewrite Hdom. cbn. apply elem_of_dom, arranque_tiene_cuenta_de_prueba. }
  destruct Hesta as [b Hb].
  unfold archivo_de. rewrite (arranque_con_cuenta_de_prueba _ b Hb).
  split; reflexivity.
Qed.

(** ** One turn of the menu *)






(** X18. The other options write nothing.  Option 3 reads one more line,
    prints the stored balance of that id or the error of the fetch, and
    the menu goes on.  Option 4 prints the farewell and [main] returns,
    leaving the rest of the input unread.  Any other line prints the
    invalid-option notice and the menu goes on; the database is not even
    read. *)
Theorem turno_sin_monto (float_de_str : string -> Excepcion + Q) (str_de_float : Q -> string)
    (p : CLI.Proceso) (opcion : string) (resto : list string) :
  CLI.entrada p = opcion :: resto ->
  opcion <> "1" -> opcion <> "2" ->
  cuentas (CLI.bd (snd (CLI.iteracion float_de_str str_de_float p))) = cuentas (CLI.bd p) /\
  (forall (id : string) (resto' : list string),
     opcion = "3" -> resto = id :: resto' ->
     fst (CLI.iteracion float_de_str str_de_float p) = None /\
     CLI.entrada (snd (CLI.iteracion float_de_str str_de_float p)) = resto' /\
     last (CLI.salida (snd (CLI.iteracion float_de_str str_de_float p)))
     = Some (match cuentas (CLI.bd p) !! id with
             | Some b => "Saldo actual: " ++ str_de_float b
             | None => "Error: Cuenta no encontrada"
             end ++ CLI.nl)%string) /\
  (opcion = "4" ->
     fst (CLI.iteracion float_de_str str_de_float p) = Some CLI.Retorna /\
     CLI.bd (snd (CLI.iteracion float_de_str str_de_float p)) = CLI.bd p /\
     CLI.entrada (snd (CLI.iteracion float_de_str str_de_float p)) = resto /\
     last (CLI.salida (snd (CLI.iteracion float_de_str str_de_float p)))
     = Some ("Gracias por usar el Banco CLI. ¡Adiós!" ++ CLI.nl)%string) /\
  (opcion <> "3" -> opcion <> "4" ->
     fst (CLI.iteracion float_de_str str_de_float p) = None /\
     CLI.bd (snd (CLI.iteracion float_de_str str_de_float p)) = CLI.bd p /\
     CLI.entrada (snd (CLI.iteracion float_de_str str_de_float p)) = resto /\
     last (CLI.salida (snd (CLI.iteracion float_de_str str_de_float p)))
     = Some ("Opción no válida. Intente de nuevo." ++ CLI.nl)%string).
Proof.
  intros Hent H1 H2. destruct p as [lineas escrito conn]. cbn in Hent. subst lineas.
  apply String.eqb_neq in H1, H2.
  unfold CLI.iteracion, CLI.input, CLI.menu, CLI.print.
  cbn [CLI.entrada CLI.salida CLI.bd]. rewrite H1, H2.
  split; [| split; [| split]].
  - destruct (opcion =? "3")%string.
    + unfold CLI.opcion_consultar, CLI.input. cbn [CLI.entrada CLI.salida CLI.bd].
      destruct resto as [|id resto']; [reflexivity |]. cbn [snd].
      rewrite intentar_bd. cbn [CLI.bd].
      destruct (cuentas conn !! id) as [b|] eqn:Hid.
      * rewrite (consultar_presente id b conn Hid). reflexivity.
      * rewrite (consultar_ausente id conn Hid). reflexivity.
    + destruct (opcion =? "4")%string; reflexivity.
  - intros id resto' -> ->. cbn [String.eqb Ascii.eqb Bool.eqb].
    unfold CLI.opcion_consultar, CLI.input. cbn [CLI.entrada CLI.salida CLI.bd fst snd].
    rewrite intentar_entrada, intentar_salida. cbn [CLI.entrada CLI.bd].
    split; [reflexivity |]. split; [reflexivity |].
    destruct (cuentas conn !! id) as [b|] eqn:Hid.
    + rewrite (consultar_presente id b conn Hid). reflexivity.
    + rewrite (consultar_ausente id conn Hid). reflexivity.
  - intros ->. cbn. repeat split. apply last_snoc.
  - intros H3 H4. apply String.eqb_neq in H3, H4. rewrite H3, H4. cbn.
    repeat split. apply last_snoc.
Qed.

Lemma turno_sin_monto_witness :
  fst (CLI.iteracion float_de_prueba str_de_prueba
         {| CLI.entrada := ["4"; "1"]; CLI.salida := []; CLI.bd := banco_inicial |})
  = Some CLI.Retorna /\
  fst (CLI.iteracion float_de_prueba str_de_prueba
         {| CLI.entrada := ["9"; "4"]; CLI.salida := []; CLI.bd := banco_inicial |})
  = None.
Proof.
  split.
  - destruct (turno_sin_monto float_de_prueba str_de_prueba
                {| CLI.entrada := ["4"; "1"]; CLI.salida := []; CLI.bd := banco_inicial |}
                "4" ["1"])
      as (_ & _ & Hsalir & _); [reflexivity | discriminate | discriminate |].
    apply Hsalir. reflexivity.
  - destruct (turno_sin_monto float_de_prueba str_de_prueba
                {| CLI.entrada := ["9"; "4"]; CLI.salida := []; CLI.bd := banco_inicial |}
                "9" ["4"])
      as (_ & _ & _ & Hotra); [reflexivity | discriminate | discriminate |].
    apply Hotra; discriminate.
Defined.

(** ** The form, and the two front ends side by side *)

(** X19. An amount that [float] refuses.  In the menu, [float] stands
    outside the [try]: in a turn of option 1 or 2 the [ValueError] of
    [float] leaves [main], the three lines are read and the database is
    not touched.  In the form, [float] stands inside the [try]: the
    handler shows one error box with the message of that [ValueError] and
    the database is not touched. *)
Theorem monto_no_numerico (float_de_str : string -> Excepcion + Q) (str_de_float : Q -> string)
    (id texto : string) (e : Excepcion) (conn : Conexion) :
  float_de_str texto = inl e ->
  (forall (opcion : string) (resto escrito : list string),
     opcion = "1" \/ opcion = "2" ->
     fst (CLI.iteracion float_de_str str_de_float
            {| CLI.entrada := opcion :: id :: texto :: resto;
               CLI.salida := escrito; CLI.bd := conn |})
     = Some (CLI.NoCapturada e) /\
     CLI.bd (snd (CLI.iteracion float_de_str str_de_float
                    {| CLI.entrada := opcion :: id :: texto :: resto;
                       CLI.salida := escrito; CLI.bd := conn |}))
     = conn /\
     CLI.entrada (snd (CLI.iteracion float_de_str str_de_float
                         {| CLI.entrada := opcion :: id :: texto :: resto;
                            CLI.salida := escrito; CLI.bd := conn |}))
     = resto) /\
  AplicacionBanco.depositar float_de_str str_de_float id texto conn
  = ([AplicacionBanco.showerror "Error" (str_de_excepcion e)], conn) /\
  AplicacionBanco.retirar float_de_str str_de_float id texto conn
  = ([AplicacionBanco.showerror "Error" (str_de_excepcion e)], conn).
Proof.
  intros Hf. split; [| split].
  - intros opcion resto escrito [-> | ->];
      unfold CLI.iteracion, CLI.opcion_con_monto, CLI.input, CLI.menu, CLI.print; cbn;
      rewrite Hf; repeat split.
  - unfold AplicacionBanco.depositar, AplicacionBanco.manejar. rewrite Hf. reflexivity.
  - unfold AplicacionBanco.retirar, AplicacionBanco.manejar. rewrite Hf. reflexivity.
Qed.

Lemma monto_no_numerico_witness :
  fst (CLI.iteracion float_de_prueba str_de_prueba
         {| CLI.entrada := ["1"; "12345"; "abc"; "4"]; CLI.salida := [];
            CLI.bd := banco_inicial |})
  = Some (CLI.NoCapturada (ValueError "could not convert string to float: abc")) /\
  AplicacionBanco.depositar float_de_prueba str_de_prueba "12345" "abc" banco_inicial
  = ([AplicacionBanco.showerror "Error" "could not convert string to float: abc"],
     banco_inicial).
Proof.
  destruct (monto_no_numerico float_de_prueba str_de_prueba "12345" "abc"
              (ValueError "could not convert string to float: abc") banco_inicial)
    as (Hmenu & Hform & _); [reflexivity |].
  split.
  - destruct (Hmenu "1" ["4"] []) as (Hfin & _); [left; reflexivity |]. exact Hfin.
  - exact Hform.
Defined.





(** ** A session of the menu, run on the model *)

Example sesion :
  let r := CLI.main float_de_prueba str_de_prueba None
             ["1"; "12345"; "50"; "2"; "12345"; "200"; "2"; "12345"; "150";
              "3"; "99999"; "7"; "4"; "1"] in
  fst r = Some CLI.Retorna /\
  CLI.entrada (snd r) = ["1"] /\
  cuentas (CLI.bd (snd r)) !! "12345" = Some 0 /\
  filter (fun l => String.prefix "Error" l || String.prefix "Dep" l
                   || String.prefix "Retiro" l || String.prefix "Op" l)
         (CLI.salida (snd r))
  = [("Depósito exitoso. Nuevo saldo: 150.0" ++ CLI.nl)%string;
     ("Error: Fondos insuficientes" ++ CLI.nl)%string;
     ("Retiro exitoso. Nuevo saldo: 0.0" ++ CLI.nl)%string;
     ("Error: Cuenta no encontrada" ++ CLI.nl)%string;
     ("Opción no válida. Intente de nuevo." ++ CLI.nl)%string].
Proof. vm_compute. repeat split. Qed.
